(** * Newsletter REST API: a shallow embedding of [server/app.py] and
      [server/seed.py]

    The handlers of [app.py] are written against Flask (request, response),
    Flask-SQLAlchemy (session, query) and flask-marshmallow (schema).  They
    are embedded here as computations in a state-and-exception monad over the
    database session, one definition per method of the source, under the
    names of the source.

    What the model covers: the request form as an ordered multi-dictionary,
    Python's [None] for an absent record and what the session, [setattr] and
    the schema do when they are handed [None], the unit of work (what is
    written is only visible in the database after [commit]), the primary key
    assigned on insert, and the fields a schema dumps.

    What the model leaves out: the column types.  They are declared in
    [models.py], which is not part of the sources, so attribute values are
    carried as opaque Python values from the request to the table and to the
    dumped object: neither the check of a value against its column by the
    database driver nor the rendering of a value by the field type that
    [auto_field] derives from the column is modelled, and a hyperlink is kept
    as the endpoint and values given to [url_for]. *)

From stdpp Require Import base numbers list strings gmap.

Local Open Scope string_scope.
Local Open Scope list_scope.
Local Open Scope Z_scope.

(** ** Python values and exceptions *)

Inductive pyval : Type :=
  | PyNone
  | PyInt (z : Z)
  | PyStr (s : string)
  | PyDateTime (t : Z).

#[global] Instance pyval_eq_dec : EqDecision pyval.
Proof. solve_decision. Defined.

Inductive exn : Type :=
  | BadRequestKeyError (key : string)
  | AttributeError (name : string)
  | UnmappedInstanceError
  | InvalidRequestError.

Inductive Result (A : Type) : Type :=
  | Ok (a : A)
  | Raised (e : exn).
Arguments Ok {A} a.
Arguments Raised {A} e.

(** ** The model class *)

(** Modelled from the spec: [models.py] (the class [Newsletter]) is not in
    the sources.  The spec's data model gives it four columns: [id], the
    auto-assigned integer primary key, [title] and [body], text, and
    [published_at], a timestamp with a server-side default at creation. *)
Record Newsletter : Type := mkNewsletter {
  id : pyval;
  title : pyval;
  body : pyval;
  published_at : pyval
}.

#[global] Instance Newsletter_eq_dec : EqDecision Newsletter.
Proof. solve_decision. Defined.

(** The table [newsletters]: its rows, in insertion order. *)
Definition Table : Type := list Newsletter.

(** A Python object of class [Newsletter]: the state of its mapped columns,
    the row of the table it is bound to ([None] while it is transient), and
    the attributes that are no column, which live in the object's
    [__dict__] only. *)
Record Instance : Type := mkInstance {
  ident : option nat;
  cols : Newsletter;
  dict : gmap string pyval
}.

(** [Newsletter(title=..., body=...)] *)
Definition new_Newsletter (t b : pyval) : Instance :=
  {| ident := None;
     cols := {| id := PyNone; title := t; body := b; published_at := PyNone |};
     dict := ∅ |}.

(** [getattr(obj, attr)] and the assignment [setattr(obj, attr, v)] on an
    object of the class. *)
Definition get_column (r : Newsletter) (attr : string) : option pyval :=
  if decide (attr = "id") then Some (id r)
  else if decide (attr = "title") then Some (title r)
  else if decide (attr = "body") then Some (body r)
  else if decide (attr = "published_at") then Some (published_at r)
  else None.

Definition get_attribute (n : Instance) (attr : string) : option pyval :=
  match get_column (cols n) attr with
  | Some v => Some v
  | None => dict n !! attr
  end.

Definition set_column (r : Newsletter) (attr : string) (v : pyval) : Newsletter :=
  if decide (attr = "id") then
    {| id := v; title := title r; body := body r; published_at := published_at r |}
  else if decide (attr = "title") then
    {| id := id r; title := v; body := body r; published_at := published_at r |}
  else if decide (attr = "body") then
    {| id := id r; title := title r; body := v; published_at := published_at r |}
  else if decide (attr = "published_at") then
    {| id := id r; title := title r; body := body r; published_at := v |}
  else r.

Definition is_column (attr : string) : bool :=
  bool_decide (attr ∈ ["id"; "title"; "body"; "published_at"]).

Definition set_attribute (n : Instance) (attr : string) (v : pyval) : Instance :=
  if is_column attr then
    {| ident := ident n; cols := set_column (cols n) attr v; dict := dict n |}
  else
    {| ident := ident n; cols := cols n; dict := <[attr := v]> (dict n) |}.

(** ** The database session *)

(** [database] is the committed table, [transaction] the table as the open
    transaction sees it, [clock] the database's current timestamp. *)
Record Session : Type := mkSession {
  database : Table;
  transaction : Table;
  clock : Z
}.

Definition M (A : Type) : Type := Session -> Result A * Session.

#[global] Instance M_ret : MRet M := fun A a s => (Ok a, s).

#[global] Instance M_bind : MBind M := fun A B k m s =>
  match m s with
  | (Ok a, s') => k a s'
  | (Raised e, s') => (Raised e, s')
  end.

Definition raise {A} (e : exn) : M A := fun s => (Raised e, s).

(** The object a query makes of the row [r] at position [k], and the
    objects of all rows of a table. *)
Definition loaded (k : nat) (r : Newsletter) : Instance :=
  {| ident := Some k; cols := r; dict := ∅ |}.

Definition load (t : Table) : list Instance := imap loaded t.

(** [Newsletter.query.all()] *)
Definition query_all : M (list Instance) :=
  fun s => (Ok (load (transaction s)), s).

(** [Newsletter.query.filter_by(id=id).first()]: the first row whose [id]
    is the integer of the route, or [None]. *)
Definition query_filter_by_id_first (i : Z) : M (option Instance) :=
  fun s =>
    (Ok (match list_find (fun r => id r = PyInt i) (transaction s) with
         | Some (k, r) => Some (loaded k r)
         | None => None
         end), s).

(** [Newsletter.query.delete()]: deletes every row, returns their number. *)
Definition query_delete : M nat :=
  fun s => (Ok (List.length (transaction s)),
            {| database := database s; transaction := []; clock := clock s |}).

(** The key of a new row, as SQLite assigns it to an integer primary key
    left empty: 1 in a table without integer keys, and otherwise one more
    than the largest. *)
Definition int_ids (t : Table) : list Z :=
  omap (fun r => match id r with PyInt z => Some z | _ => None end) t.

Definition next_id (t : Table) : Z :=
  match int_ids t with
  | [] => 1
  | z :: zs => 1 + foldr Z.max z zs
  end.

(** The row an INSERT of the columns [r] adds: an empty [id] is assigned,
    and an empty [published_at] takes the default the spec's data model
    gives the column, the database's timestamp at creation. *)
Definition inserted (t : Table) (now : Z) (r : Newsletter) : Newsletter :=
  {| id := match id r with PyNone => PyInt (next_id t) | v => v end;
     title := title r;
     body := body r;
     published_at :=
       match published_at r with PyNone => PyDateTime now | v => v end |}.

(** [db.session.add(obj)].  [None] is no mapped instance.  The object keeps
    its Python identity; the value returned here is its state once the
    session has flushed it: a transient object is inserted and bound to its
    new row, a persistent one has its columns written to its row.  (The
    session flushes at [commit]; no handler does anything between [add] and
    [commit], and the flush is modelled at [add].) *)
Definition session_add (o : option Instance) : M (option Instance) :=
  fun s =>
    match o with
    | None => (Raised UnmappedInstanceError, s)
    | Some n =>
        match ident n with
        | Some k =>
            (Ok (Some n),
             {| database := database s;
                transaction := <[k := cols n]> (transaction s);
                clock := clock s |})
        | None =>
            let r := inserted (transaction s) (clock s) (cols n) in
            (Ok (Some {| ident := Some (List.length (transaction s));
                         cols := r; dict := dict n |}),
             {| database := database s;
                transaction := transaction s ++ [r];
                clock := clock s |})
        end
    end.

(** [db.session.add_all(objs)] *)
Fixpoint session_add_all (l : list Instance) : M (list Instance) :=
  match l with
  | [] => mret []
  | n :: l' =>
      o ← session_add (Some n);
      rest ← session_add_all l';
      mret (match o with Some n' => n' :: rest | None => rest end)
  end.

(** [db.session.delete(obj)] *)
Definition session_delete (o : option Instance) : M unit :=
  fun s =>
    match o with
    | None => (Raised UnmappedInstanceError, s)
    | Some n =>
        match ident n with
        | Some k =>
            (Ok tt,
             {| database := database s;
                transaction := delete k (transaction s);
                clock := clock s |})
        | None => (Raised InvalidRequestError, s)
        end
    end.

(** [db.session.commit()] *)
Definition session_commit : M unit :=
  fun s => (Ok tt,
            {| database := transaction s;
               transaction := transaction s;
               clock := clock s |}).

(** ** The request *)

(** [request.form]: the submitted fields in the order of the request body;
    a name may occur more than once. *)
Definition Form : Type := list (string * string).

Fixpoint form_first (form : Form) (key : string) : option string :=
  match form with
  | [] => None
  | (k, v) :: form' => if decide (k = key) then Some v else form_first form' key
  end.

(** [request.form[key]]: the first value submitted under [key]; a missing
    key raises werkzeug's [BadRequestKeyError], a [KeyError]. *)
Definition form_getitem (form : Form) (key : string) : M string :=
  match form_first form key with
  | Some v => mret v
  | None => raise (BadRequestKeyError key)
  end.

(** [for attr in request.form]: every name once, in the order of its first
    occurrence. *)
Fixpoint form_keys (form : Form) : list string :=
  match form with
  | [] => []
  | (k, _) :: form' => k :: filter (fun k' => k' ≠ k) (form_keys form')
  end.

(** ** The response *)

Local Unset Elimination Schemes.
Inductive json : Type :=
  | JValue (v : pyval)
  | JUrl (endpoint : string) (values : list (string * pyval))
  | JObject (fields : list (string * json))
  | JArray (items : list json).
Local Set Elimination Schemes.

Record Response : Type := make_response {
  payload : json;
  status : Z
}.

(** The names of the fields of a JSON object, and one of its fields. *)
Definition json_keys (j : json) : list string :=
  match j with
  | JObject fields => fields.*1
  | _ => []
  end.

Fixpoint lookup_field (name : string) (fields : list (string * json)) : option json :=
  match fields with
  | [] => None
  | (k, j) :: fields' => if decide (k = name) then Some j else lookup_field name fields'
  end.

Definition json_field (name : string) (j : json) : option json :=
  match j with
  | JObject fields => lookup_field name fields
  | _ => None
  end.

(** ** The schema *)

(** [ma.URLFor(endpoint, values=dict(name="<attr>", ...))] *)
Record URLFor : Type := mkURLFor {
  endpoint : string;
  values : list (string * string)
}.

Inductive field : Type :=
  | auto_field
  | Hyperlinks (links : list (string * URLFor)).

Definition Schema : Type := list (string * field).

(** The attribute of an object that may be [None]; [None] has none of the
    attributes asked for here. *)
Definition getattr (o : option Instance) (attr : string) : option pyval :=
  match o with
  | Some n => get_attribute n attr
  | None => None
  end.

(** The values of a link: an attribute the object lacks raises
    [AttributeError], an attribute that is [None] makes the link [None]. *)
Fixpoint url_values (o : option Instance) (vs : list (string * string))
  : M (option (list (string * pyval))) :=
  match vs with
  | [] => mret (Some [])
  | (name, attr) :: vs' =>
      match getattr o attr with
      | None => raise (AttributeError attr)
      | Some PyNone => mret None
      | Some v =>
          rest ← url_values o vs';
          mret (match rest with
                | Some ps => Some ((name, v) :: ps)
                | None => None
                end)
      end
  end.

Definition serialize_url (o : option Instance) (u : URLFor) : M json :=
  ps ← url_values o (values u);
  mret (match ps with
        | Some ps => JUrl (endpoint u) ps
        | None => JValue PyNone
        end).

Fixpoint serialize_links (o : option Instance) (links : list (string * URLFor))
  : M (list (string * json)) :=
  match links with
  | [] => mret []
  | (name, u) :: links' =>
      j ← serialize_url o u;
      rest ← serialize_links o links';
      mret ((name, j) :: rest)
  end.

(** The declared fields, in order; a field whose attribute the object lacks
    is left out of the output. *)
Fixpoint serialize_fields (o : option Instance) (sch : Schema)
  : M (list (string * json)) :=
  match sch with
  | [] => mret []
  | (name, auto_field) :: sch' =>
      rest ← serialize_fields o sch';
      mret (match getattr o name with
            | Some v => (name, JValue v) :: rest
            | None => rest
            end)
  | (name, Hyperlinks links) :: sch' =>
      ls ← serialize_links o links;
      rest ← serialize_fields o sch';
      mret ((name, JObject ls) :: rest)
  end.

(** [schema.dump(obj)] *)
Definition dump (sch : Schema) (o : option Instance) : M json :=
  fs ← serialize_fields o sch;
  mret (JObject fs).

(** [schema.dump(objs)] of a schema made with [many=True] *)
Fixpoint dump_all (sch : Schema) (l : list Instance) : M (list json) :=
  match l with
  | [] => mret []
  | n :: l' =>
      j ← dump sch (Some n);
      rest ← dump_all sch l';
      mret (j :: rest)
  end.

Definition dump_many (sch : Schema) (l : list Instance) : M json :=
  js ← dump_all sch l;
  mret (JArray js).

(** [class NewsletterSchema(ma.SQLAlchemySchema)]: the fields it declares. *)
Definition NewsletterSchema : Schema :=
  [ ("title", auto_field);
    ("published_at", auto_field);
    ("url", Hyperlinks
       [ ("self", {| endpoint := "newsletterbyid"; values := [("id", "id")] |});
         ("collection", {| endpoint := "newsletters"; values := [] |}) ]) ].

Definition newsletter_schema : option Instance -> M json := dump NewsletterSchema.
Definition newsletters_schema : list Instance -> M json := dump_many NewsletterSchema.

(** The object the declared fields make of the columns of a row; the link
    to the row itself is [None] while the row has no [id]. *)
Definition self_link (v : pyval) : json :=
  match v with
  | PyNone => JValue PyNone
  | _ => JUrl "newsletterbyid" [("id", v)]
  end.

Definition dumped (r : Newsletter) : json :=
  JObject
    [ ("title", JValue (title r));
      ("published_at", JValue (published_at r));
      ("url", JObject [ ("self", self_link (id r));
                        ("collection", JUrl "newsletters" []) ]) ].

(** ** The resources *)

Module Index.

Definition get : M Response :=
  let response_dict :=
    JObject [("index", JValue (PyStr "Welcome to the Newsletter RESTful API"))] in
  mret (make_response response_dict 200).

End Index.

Module Newsletters.

Definition get : M Response :=
  newsletters ← query_all;
  d ← newsletters_schema newsletters;
  mret (make_response d 200).

Definition post (form : Form) : M Response :=
  t ← form_getitem form "title";
  b ← form_getitem form "body";
  let new_newsletter := new_Newsletter (PyStr t) (PyStr b) in
  new_newsletter ← session_add (Some new_newsletter);
  session_commit;;
  d ← newsletter_schema new_newsletter;
  mret (make_response d 201).

End Newsletters.

(** [setattr(obj, attr, v)]; [None] has no attribute to assign. *)
Definition setattr (o : option Instance) (attr : string) (v : pyval)
  : M (option Instance) :=
  match o with
  | Some n => mret (Some (set_attribute n attr v))
  | None => raise (AttributeError attr)
  end.

(** [for attr in attrs: setattr(newsletter, attr, request.form[attr])] *)
Fixpoint assign_form (form : Form) (attrs : list string) (newsletter : option Instance)
  : M (option Instance) :=
  match attrs with
  | [] => mret newsletter
  | attr :: attrs' =>
      v ← form_getitem form attr;
      newsletter ← setattr newsletter attr (PyStr v);
      assign_form form attrs' newsletter
  end.

Module NewsletterByID.

Definition get (id : Z) : M Response :=
  newsletter ← query_filter_by_id_first id;
  d ← newsletter_schema newsletter;
  mret (make_response d 200).

Definition patch (id : Z) (form : Form) : M Response :=
  newsletter ← query_filter_by_id_first id;
  newsletter ← assign_form form (form_keys form) newsletter;
  newsletter ← session_add newsletter;
  session_commit;;
  d ← newsletter_schema newsletter;
  mret (make_response d 200).

Definition delete (id : Z) : M Response :=
  record ← query_filter_by_id_first id;
  session_delete record;;
  session_commit;;
  let response_dict :=
    JObject [("message", JValue (PyStr "record successfully deleted"))] in
  mret (make_response response_dict 200).

End NewsletterByID.

(** ** Routing and the request cycle *)

Inductive Request : Type :=
  | GET_index
  | GET_newsletters
  | POST_newsletters (form : Form)
  | GET_newsletter (id : Z)
  | PATCH_newsletter (id : Z) (form : Form)
  | DELETE_newsletter (id : Z).

(** [api.add_resource]: [/], [/newsletters], [/newsletters/<int:id>] *)
Definition route (r : Request) : M Response :=
  match r with
  | GET_index => Index.get
  | GET_newsletters => Newsletters.get
  | POST_newsletters form => Newsletters.post form
  | GET_newsletter id => NewsletterByID.get id
  | PATCH_newsletter id form => NewsletterByID.patch id form
  | DELETE_newsletter id => NewsletterByID.delete id
  end.

(** Whether a request assigns the attribute [id]: only a PATCH whose body
    names it does. *)
Definition names_id (r : Request) : bool :=
  match r with
  | PATCH_newsletter _ form => bool_decide ("id" ∈ form_keys form)
  | _ => false
  end.

(** One request against the table [t] at time [now]: the handler runs in a
    session of its own; what it has not committed when it returns or raises
    is discarded with the session. *)
Definition serve (now : Z) (r : Request) (t : Table) : Result Response * Table :=
  let '(res, s) := route r {| database := t; transaction := t; clock := now |} in
  (res, database s).

(** ** The seed script *)

Section Seed.

(** The Faker generator: its state, and the two providers the script
    calls, each returning a text and the generator's next state. *)
Variable Faker : Type.
Variable text : Z -> Faker -> string * Faker.
Variable paragraph : Z -> Faker -> string * Faker.

(** [for i in range(n)]: one [Newsletter] per round, appended to
    [newsletters]. *)
Fixpoint generate (n : nat) (fake : Faker) (newsletters : list Instance)
  : list Instance * Faker :=
  match n with
  | O => (newsletters, fake)
  | S n' =>
      let '(t, fake) := text 20 fake in
      let '(b, fake) := paragraph 5 fake in
      let newsletter := new_Newsletter (PyStr t) (PyStr b) in
      generate n' fake (newsletters ++ [newsletter])
  end.

Definition seed (fake : Faker) : M unit :=
  query_delete;;
  let newsletters := (generate 50 fake []).1 in
  session_add_all newsletters;;
  session_commit.

(** A run of the script against the table [t] at time [now]. *)
Definition run_seed (now : Z) (fake : Faker) (t : Table) : Result unit * Table :=
  let '(res, s) := seed fake {| database := t; transaction := t; clock := now |} in
  (res, database s).

End Seed.

(** ** Observations and sample data *)

(** The object the loop of [patch] leaves, when the form has a value for
    every name of [attrs]. *)
Fixpoint assigned (form : Form) (attrs : list string) (n : Instance) : Instance :=
  match attrs with
  | [] => n
  | attr :: attrs' =>
      match form_first form attr with
      | Some v => assigned form attrs' (set_attribute n attr (PyStr v))
      | None => n
      end
  end.

(** The rows that inserting the new objects [ns] one after the other makes
    when the first of them gets the key [k]: the [title] and [body] of the
    objects, consecutive keys, the timestamp [now]. *)
Fixpoint seeded_from (k : Z) (now : Z) (ns : list Instance) : Table :=
  match ns with
  | [] => []
  | n :: ns' =>
      {| id := PyInt k; title := title (cols n); body := body (cols n);
         published_at := PyDateTime now |} :: seeded_from (k + 1) now ns'
  end.

(** An object that was made by [Newsletter(...)] and not yet added. *)
Definition transient (n : Instance) : Prop :=
  ident n = None /\ id (cols n) = PyNone /\ published_at (cols n) = PyNone.

(** The fields the schema declares, as a property of a dumped object: its
    fields are [title], [published_at] and [url], the latter with the links
    [self] and [collection]; there is neither [id] nor [body]. *)
Definition has_declared_fields (j : json) : Prop :=
  json_keys j = ["title"; "published_at"; "url"] /\
  json_keys <$> json_field "url" j = Some ["self"; "collection"] /\
  ("id" ∉ json_keys j) /\
  ("body" ∉ json_keys j).

(** Two rows to try the handlers on. *)
Definition first_issue : Newsletter :=
  {| id := PyInt 1; title := PyStr "Spring"; body := PyStr "Hello.";
     published_at := PyDateTime 100 |}.

Definition second_issue : Newsletter :=
  {| id := PyInt 2; title := PyStr "Summer"; body := PyStr "Again.";
     published_at := PyDateTime 200 |}.

(** * Properties *)

(** A closed decidable proposition, settled by evaluating its decision. *)
Ltac decide_closed := apply (bool_decide_unpack _); vm_compute; exact I.

(** ** Running the monad *)

Lemma bind_Ok {A B} (m : M A) (k : A -> M B) s a s' :
  m s = (Ok a, s') -> (m ≫= k) s = k a s'.
Proof. intros H. unfold mbind, M_bind. by rewrite H. Qed.

Lemma bind_Raised {A B} (m : M A) (k : A -> M B) s e s' :
  m s = (Raised e, s') -> (m ≫= k) s = (Raised e, s').
Proof. intros H. unfold mbind, M_bind. by rewrite H. Qed.

(** ** Attributes *)

Lemma get_attribute_id n : get_attribute n "id" = Some (id (cols n)).
Proof. reflexivity. Qed.

Lemma get_attribute_title n : get_attribute n "title" = Some (title (cols n)).
Proof. reflexivity. Qed.

Lemma get_attribute_published_at n :
  get_attribute n "published_at" = Some (published_at (cols n)).
Proof. reflexivity. Qed.

(** ** The schema *)

(** The schema dumps every object of the class, and dumps the declared
    fields of its columns. *)
Lemma newsletter_schema_Some n s :
  newsletter_schema (Some n) s = (Ok (dumped (cols n)), s).
Proof.
  unfold newsletter_schema, dump, dumped, self_link, NewsletterSchema.
  cbn. rewrite get_attribute_id, get_attribute_title, get_attribute_published_at.
  unfold mbind, M_bind, mret, M_ret, raise.
  by destruct (id (cols n)).
Qed.

(** Handed [None], the schema fails on the link that needs the [id]. *)
Lemma newsletter_schema_None s :
  newsletter_schema None s = (Raised (AttributeError "id"), s).
Proof. reflexivity. Qed.

Lemma newsletters_schema_load_from (t : Table) (k : nat) s :
  dump_all NewsletterSchema
    (imap (fun i r => {| ident := Some (k + i)%nat; cols := r; dict := ∅ |}) t) s
  = (Ok (dumped <$> t), s).
Proof.
  revert k. induction t as [|r t IH]; intros k; [done|].
  cbn [imap dump_all].
  rewrite (imap_ext _ (fun i r => {| ident := Some (S k + i)%nat; cols := r; dict := ∅ |}) t).
  - rewrite (bind_Ok _ _ _ _ _ (newsletter_schema_Some _ _)).
    by rewrite (bind_Ok _ _ _ _ _ (IH (S k))).
  - intros i x _. cbn. do 2 f_equal. lia.
Qed.

Lemma newsletters_schema_load (t : Table) s :
  newsletters_schema (load t) s = (Ok (JArray (dumped <$> t)), s).
Proof.
  unfold newsletters_schema, dump_many, load.
  erewrite bind_Ok; [reflexivity|].
  apply (newsletters_schema_load_from t 0).
Qed.

(** ** Looking a row up by its id *)

Lemma find_id_elem_of (i : Z) (t : Table) :
  PyInt i ∈ id <$> t ->
  exists k r, list_find (fun r => id r = PyInt i) t = Some (k, r).
Proof.
  intros (r & Hid & Hr)%list_elem_of_fmap.
  destruct (list_find_elem_of (fun r => id r = PyInt i) t r) as [[k r'] H]; eauto.
Qed.

Lemma find_id_not_elem_of (i : Z) (t : Table) :
  PyInt i ∉ id <$> t ->
  list_find (fun r => id r = PyInt i) t = None.
Proof.
  intros Hnot. apply list_find_None, Forall_forall. intros r Hr Hid.
  apply Hnot, list_elem_of_fmap. eauto.
Qed.

Lemma find_id_Some (i : Z) (t : Table) k r :
  list_find (fun r => id r = PyInt i) t = Some (k, r) ->
  t !! k = Some r /\ id r = PyInt i.
Proof. intros (? & ? & _)%list_find_Some. done. Qed.

(** ** DELETE /newsletters/<id> *)

Lemma serve_delete now i t :
  serve now (DELETE_newsletter i) t =
  match list_find (fun r => id r = PyInt i) t with
  | Some (k, _) =>
      (Ok (make_response
             (JObject [("message", JValue (PyStr "record successfully deleted"))])
             200),
       delete k t)
  | None => (Raised UnmappedInstanceError, t)
  end.
Proof.
  unfold serve, route, NewsletterByID.delete, mbind, M_bind,
    query_filter_by_id_first.
  cbn. by destruct (list_find _ t) as [[k r]|].
Qed.

(** C1, as the code has it: when a row with the id of the route exists,
    DELETE removes the first such row, and only it, and answers with the
    message "record successfully deleted" and status 200; when no row has
    that id, the absent record is handed to the session, whose [delete]
    raises: the request fails, nothing is answered and the table is left as
    it was. *)
Theorem delete_removes_or_raises now (i : Z) (t : Table) :
  (PyInt i ∈ id <$> t ->
   exists k r,
     t !! k = Some r /\ id r = PyInt i /\
     serve now (DELETE_newsletter i) t =
       (Ok (make_response
              (JObject [("message", JValue (PyStr "record successfully deleted"))])
              200),
        delete k t)) /\
  (PyInt i ∉ id <$> t ->
   serve now (DELETE_newsletter i) t = (Raised UnmappedInstanceError, t)).
Proof.
  rewrite serve_delete. split.
  - intros (k & r & Hfind)%find_id_elem_of. rewrite Hfind.
    apply find_id_Some in Hfind as [Hk Hid]. eauto.
  - intros Hnot. by rewrite (find_id_not_elem_of i t Hnot).
Qed.

Lemma delete_removes_or_raises_witness :
  (PyInt 2 ∈ id <$> [first_issue; second_issue] /\
   exists k r,
     [first_issue; second_issue] !! k = Some r /\ id r = PyInt 2 /\
     serve 300 (DELETE_newsletter 2) [first_issue; second_issue] =
       (Ok (make_response
              (JObject [("message", JValue (PyStr "record successfully deleted"))])
              200),
        delete k [first_issue; second_issue])) /\
  ((PyInt 3 ∉ id <$> [first_issue; second_issue]) /\
   serve 300 (DELETE_newsletter 3) [first_issue; second_issue] =
     (Raised UnmappedInstanceError, [first_issue; second_issue])).
Proof.
  assert (PyInt 2 ∈ id <$> [first_issue; second_issue]) as Hin by decide_closed.
  assert (PyInt 3 ∉ id <$> [first_issue; second_issue]) as Hnot by decide_closed.
  split; (split; [assumption|]).
  - exact (proj1 (delete_removes_or_raises 300 2 [first_issue; second_issue]) Hin).
  - exact (proj2 (delete_removes_or_raises 300 3 [first_issue; second_issue]) Hnot).
Defined.

(** C1 as the spec words it fails: DELETE of an id no row has does not answer
    with the message. *)
Lemma delete_absent_counterexample :
  (serve 300 (DELETE_newsletter 3) [first_issue; second_issue]).1 <>
    Ok (make_response
          (JObject [("message", JValue (PyStr "record successfully deleted"))])
          200).
Proof. vm_compute. discriminate. Qed.

(** ** GET /newsletters and the fields of a dumped row *)

Lemma dumped_declared r : has_declared_fields (dumped r).
Proof.
  unfold has_declared_fields, dumped. cbn.
  split_and!; [done|done|decide_closed|decide_closed].
Qed.

Lemma serve_get_all now t :
  serve now GET_newsletters t =
    (Ok (make_response (JArray (dumped <$> t)) 200), t).
Proof.
  unfold serve, route, Newsletters.get, query_all.
  unfold mbind at 1 2, M_bind. cbn [transaction].
  by rewrite newsletters_schema_load.
Qed.

(** C2, as the code has it: the schema dumps every object of the class to a
    JSON object with exactly the fields [title], [published_at] and [url],
    where [url] has the links [self] and [collection]; the object contains
    neither [id] nor [body].  This holds for the single object a handler
    dumps and for every item of the array GET /newsletters answers with,
    which has one item per row. *)
Theorem schema_dumps_declared_fields now (n : Instance) (s : Session) (t : Table) :
  (exists j, newsletter_schema (Some n) s = (Ok j, s) /\ has_declared_fields j) /\
  (exists js,
     serve now GET_newsletters t = (Ok (make_response (JArray js) 200), t) /\
     length js = length t /\
     Forall has_declared_fields js).
Proof.
  split.
  - exists (dumped (cols n)). split; [apply newsletter_schema_Some|apply dumped_declared].
  - exists (dumped <$> t). split_and!.
    + apply serve_get_all.
    + apply length_fmap.
    + apply Forall_fmap, Forall_forall. intros r _. apply dumped_declared.
Qed.

(** C2 as the spec words it fails: the object dumped for a row has no field
    [id], so its fields are not [id], [title], [published_at] and [url]. *)
Lemma schema_fields_counterexample :
  exists j,
    serve 300 (GET_newsletter 1) [first_issue; second_issue] =
      (Ok (make_response j 200), [first_issue; second_issue]) /\
    ~ (json_keys j ≡ₚ ["id"; "title"; "published_at"; "url"]).
Proof.
  eexists. split; [vm_compute; reflexivity|].
  intros Hperm%Permutation_length. discriminate Hperm.
Qed.

(** ** The request form *)

Lemma form_first_None (form : Form) key :
  form_first form key = None <-> key ∉ form.*1.
Proof.
  induction form as [|[k v] form IH]; cbn.
  - split; [intros _; apply not_elem_of_nil|done].
  - rewrite not_elem_of_cons. destruct (decide (k = key)) as [->|Hne].
    + split; [done|]. by intros [? _].
    + rewrite IH. split; [by intros ?; split|by intros [_ ?]].
Qed.

Lemma form_keys_elem_of (form : Form) key :
  key ∈ form_keys form <-> key ∈ form.*1.
Proof.
  induction form as [|[k v] form IH]; cbn; [done|].
  rewrite !elem_of_cons, list_elem_of_filter, IH.
  destruct (decide (key = k)) as [->|Hne]; [by split; intros; left|].
  split; [intros [?|[_ ?]]; [done|by right]|intros [?|?]; [done|by right]].
Qed.

Lemma form_keys_NoDup (form : Form) : NoDup (form_keys form).
Proof.
  induction form as [|[k v] form IH]; cbn; [constructor|].
  constructor; [|by apply NoDup_filter].
  rewrite list_elem_of_filter. by intros [? _].
Qed.

Lemma form_keys_is_Some (form : Form) key :
  key ∈ form_keys form -> is_Some (form_first form key).
Proof.
  rewrite form_keys_elem_of. intros Hin.
  destruct (form_first form key) eqn:H; [done|].
  by apply form_first_None in H.
Qed.

(** ** Assigning attributes *)

Lemma is_column_true attr :
  is_column attr = true ->
  attr = "id" \/ attr = "title" \/ attr = "body" \/ attr = "published_at".
Proof.
  unfold is_column. intros H%bool_decide_eq_true.
  rewrite !elem_of_cons in H.
  destruct H as [?|[?|[?|[?|H]]]]; auto. by apply elem_of_nil in H.
Qed.

Lemma is_column_false attr r :
  is_column attr = false -> get_column r attr = None.
Proof.
  unfold is_column. intros H%bool_decide_eq_false.
  rewrite !not_elem_of_cons in H. destruct H as (? & ? & ? & ? & _).
  unfold get_column. by repeat case_decide.
Qed.

Lemma get_set_column r attr v :
  is_column attr = true -> get_column (set_column r attr v) attr = Some v.
Proof. by intros [->|[->|[->| ->]]]%is_column_true. Qed.

Lemma get_set_column_ne r attr attr' v :
  attr <> attr' -> get_column (set_column r attr v) attr' = get_column r attr'.
Proof.
  intros Hne. unfold set_column, get_column.
  repeat case_decide; simplify_eq; done.
Qed.

Lemma get_set_attribute n attr v :
  get_attribute (set_attribute n attr v) attr = Some v.
Proof.
  unfold set_attribute, get_attribute.
  destruct (is_column attr) eqn:Hcol; cbn.
  - by rewrite get_set_column.
  - rewrite is_column_false by done. apply lookup_insert_eq.
Qed.

Lemma get_set_attribute_ne n attr attr' v :
  attr <> attr' ->
  get_attribute (set_attribute n attr v) attr' = get_attribute n attr'.
Proof.
  intros Hne. unfold set_attribute, get_attribute.
  destruct (is_column attr) eqn:Hcol; cbn.
  - by rewrite get_set_column_ne.
  - by rewrite lookup_insert_ne.
Qed.

Lemma ident_set_attribute n attr v : ident (set_attribute n attr v) = ident n.
Proof. unfold set_attribute. by destruct (is_column attr). Qed.

(** The loop: with a value in the form for every name, it raises nothing and
    leaves the session alone. *)
Lemma assign_form_Some form attrs n s :
  (forall attr, attr ∈ attrs -> is_Some (form_first form attr)) ->
  assign_form form attrs (Some n) s = (Ok (Some (assigned form attrs n)), s).
Proof.
  revert n. induction attrs as [|attr attrs IH]; intros n Hall; [done|].
  destruct (Hall attr) as [v Hv]; [by left|].
  cbn. unfold form_getitem. rewrite Hv.
  unfold mbind, M_bind, mret, M_ret. cbn.
  apply IH. intros a Ha. apply Hall. by right.
Qed.

Lemma ident_assigned form attrs n : ident (assigned form attrs n) = ident n.
Proof.
  revert n. induction attrs as [|attr attrs IH]; intros n; cbn; [done|].
  destruct (form_first form attr); [|done].
  by rewrite IH, ident_set_attribute.
Qed.

Lemma get_assigned_other form attrs n attr :
  attr ∉ attrs ->
  get_attribute (assigned form attrs n) attr = get_attribute n attr.
Proof.
  revert n. induction attrs as [|a attrs IH]; intros n Hnot; cbn; [done|].
  apply not_elem_of_cons in Hnot as [Hne Hnot].
  destruct (form_first form a); [|done].
  rewrite IH by done. by apply get_set_attribute_ne.
Qed.

Lemma get_assigned form attrs n attr v :
  (forall a, a ∈ attrs -> is_Some (form_first form a)) ->
  attr ∈ attrs ->
  form_first form attr = Some v ->
  get_attribute (assigned form attrs n) attr = Some (PyStr v).
Proof.
  revert n. induction attrs as [|a attrs IH]; intros n Hall Hin Hv.
  - by apply elem_of_nil in Hin.
  - cbn. destruct (Hall a) as [w Hw]; [by left|]. rewrite Hw.
    destruct (decide (attr ∈ attrs)) as [Hin'|Hnot].
    + apply IH; [|done..]. intros b Hb. apply Hall. by right.
    + apply elem_of_cons in Hin as [->|?]; [|done].
      rewrite get_assigned_other by done.
      rewrite get_set_attribute. congruence.
Qed.

(** ** The key of a new row *)

Lemma foldr_max_upper (z : Z) (zs : list Z) x :
  x ∈ z :: zs -> x <= foldr Z.max z zs.
Proof.
  induction zs as [|y zs IH]; cbn.
  - intros ->%list_elem_of_singleton. lia.
  - rewrite !elem_of_cons. intros [->|[->|Hx]].
    + assert (z <= foldr Z.max z zs) by (apply IH; by left). lia.
    + lia.
    + assert (x <= foldr Z.max z zs) by (apply IH; by right). lia.
Qed.

Lemma int_ids_below_next (t : Table) (z : Z) :
  PyInt z ∈ id <$> t -> z < next_id t.
Proof.
  intros (r & Hid & Hr)%list_elem_of_fmap.
  assert (z ∈ int_ids t) as Hz.
  { unfold int_ids. apply list_elem_of_omap. exists r. by rewrite <- Hid. }
  unfold next_id. destruct (int_ids t) as [|z0 zs].
  - by apply elem_of_nil in Hz.
  - apply foldr_max_upper in Hz. lia.
Qed.

Lemma next_id_fresh (t : Table) : PyInt (next_id t) ∉ id <$> t.
Proof. intros H%int_ids_below_next. lia. Qed.

(** ** POST /newsletters and GET /newsletters/<id> *)

(** The row POST adds to the table [t] at time [now]. *)
Lemma serve_post now form t :
  serve now (POST_newsletters form) t =
  match form_first form "title", form_first form "body" with
  | Some tv, Some bv =>
      let new := {| id := PyInt (next_id t); title := PyStr tv;
                    body := PyStr bv; published_at := PyDateTime now |} in
      (Ok (make_response (dumped new) 201), t ++ [new])
  | None, _ => (Raised (BadRequestKeyError "title"), t)
  | Some _, None => (Raised (BadRequestKeyError "body"), t)
  end.
Proof.
  unfold serve, route, Newsletters.post, form_getitem.
  destruct (form_first form "title") as [tv|]; [|done].
  destruct (form_first form "body") as [bv|]; [|done].
  unfold mbind at 1 2 3 4, M_bind, mret at 1 2, M_ret, session_add, session_commit.
  cbn -[newsletter_schema].
  by rewrite (bind_Ok _ _ _ _ _ (newsletter_schema_Some _ _)).
Qed.

Lemma serve_get now i t :
  serve now (GET_newsletter i) t =
  match list_find (fun r => id r = PyInt i) t with
  | Some (_, r) => (Ok (make_response (dumped r) 200), t)
  | None => (Raised (AttributeError "id"), t)
  end.
Proof.
  unfold serve, route, NewsletterByID.get, query_filter_by_id_first.
  unfold mbind at 1, M_bind. cbn -[newsletter_schema].
  destruct (list_find _ t) as [[k r]|].
  - by rewrite (bind_Ok _ _ _ _ _ (newsletter_schema_Some _ _)).
  - by rewrite (bind_Raised _ _ _ _ _ (newsletter_schema_None _)).
Qed.

Lemma find_new_row (t : Table) (r : Newsletter) :
  id r = PyInt (next_id t) ->
  list_find (fun r' => id r' = PyInt (next_id t)) (t ++ [r]) = Some (length t, r).
Proof.
  intros Hid. rewrite list_find_app_r.
  - cbn. rewrite decide_True by done. reflexivity.
  - apply find_id_not_elem_of, next_id_fresh.
Qed.

(** C5: a POST whose form lacks [title] or lacks [body] fails with the
    key-lookup error [BadRequestKeyError] of the missing name, which the
    handler does not catch, and the table is left without a new row. *)
Theorem post_missing_field_raises now (form : Form) (t : Table) :
  "title" ∉ form.*1 \/ "body" ∉ form.*1 ->
  exists key,
    (key = "title" \/ key = "body") /\
    (key ∉ form.*1) /\
    serve now (POST_newsletters form) t = (Raised (BadRequestKeyError key), t).
Proof.
  intros Hmiss. rewrite serve_post.
  destruct (form_first form "title") as [tv|] eqn:Ht.
  - destruct (form_first form "body") as [bv|] eqn:Hb.
    + destruct Hmiss as [H|H]; apply form_first_None in H; congruence.
    + exists "body". apply form_first_None in Hb. auto.
  - exists "title". apply form_first_None in Ht. auto.
Qed.

Lemma post_missing_field_raises_witness :
  ("title" ∉ [("body", "Hello.")].*1 \/ "body" ∉ [("body", "Hello.")].*1) /\
  exists key,
    (key = "title" \/ key = "body") /\
    (key ∉ [("body", "Hello.")].*1) /\
    serve 300 (POST_newsletters [("body", "Hello.")]) [first_issue] =
      (Raised (BadRequestKeyError key), [first_issue]).
Proof.
  assert ("title" ∉ [("body", "Hello.")].*1 \/ "body" ∉ [("body", "Hello.")].*1)
    as Hmiss by (left; decide_closed).
  split; [assumption|].
  exact (post_missing_field_raises 300 [("body", "Hello.")] [first_issue] Hmiss).
Defined.

(** C6: a POST whose form has [title] and [body] adds one row made of these
    two submitted values, of the key the database assigns, which no row of
    the table has, and of the database's timestamp; the row is committed,
    and the answer is the new row as the schema dumps it, with status 201.
    A later GET of the new id answers with the same [title] and
    [published_at]. *)
Theorem post_creates_row now (form : Form) (t : Table) (tv bv : string) :
  form_first form "title" = Some tv ->
  form_first form "body" = Some bv ->
  let new := {| id := PyInt (next_id t); title := PyStr tv;
                body := PyStr bv; published_at := PyDateTime now |} in
  serve now (POST_newsletters form) t =
    (Ok (make_response (dumped new) 201), t ++ [new]) /\
  (PyInt (next_id t) ∉ id <$> t) /\
  forall later,
    exists j,
      serve later (GET_newsletter (next_id t)) (t ++ [new]) =
        (Ok (make_response j 200), t ++ [new]) /\
      json_field "title" j = Some (JValue (PyStr tv)) /\
      json_field "published_at" j = Some (JValue (PyDateTime now)).
Proof.
  intros Ht Hb new. split_and!.
  - by rewrite serve_post, Ht, Hb.
  - apply next_id_fresh.
  - intros later. exists (dumped new). split; [|done].
    by rewrite serve_get, find_new_row.
Qed.

Lemma post_creates_row_witness :
  form_first [("title", "Autumn"); ("body", "Leaves.")] "title" = Some "Autumn" /\
  form_first [("title", "Autumn"); ("body", "Leaves.")] "body" = Some "Leaves." /\
  serve 300 (POST_newsletters [("title", "Autumn"); ("body", "Leaves.")])
    [first_issue; second_issue] =
    (Ok (make_response
           (dumped {| id := PyInt 3; title := PyStr "Autumn";
                      body := PyStr "Leaves."; published_at := PyDateTime 300 |})
           201),
     [first_issue; second_issue;
      {| id := PyInt 3; title := PyStr "Autumn";
         body := PyStr "Leaves."; published_at := PyDateTime 300 |}]).
Proof.
  split; [reflexivity|]. split; [reflexivity|].
  exact (proj1 (post_creates_row 300 [("title", "Autumn"); ("body", "Leaves.")]
                  [first_issue; second_issue] "Autumn" "Leaves."
                  eq_refl eq_refl)).
Defined.

(** ** PATCH /newsletters/<id> *)

Lemma serve_patch now i form t k r :
  list_find (fun r => id r = PyInt i) t = Some (k, r) ->
  serve now (PATCH_newsletter i form) t =
    (Ok (make_response (dumped (cols (assigned form (form_keys form) (loaded k r)))) 200),
     <[k := cols (assigned form (form_keys form) (loaded k r))]> t).
Proof.
  intros Hfind.
  unfold serve, route, NewsletterByID.patch, query_filter_by_id_first.
  unfold mbind at 1 2, M_bind. cbn [transaction]. rewrite Hfind.
  rewrite assign_form_Some by apply form_keys_is_Some.
  unfold mbind at 1 2 3, M_bind, session_add, session_commit.
  rewrite ident_assigned. cbn -[newsletter_schema].
  by rewrite newsletter_schema_Some.
Qed.

(** Without a row of that id the handler works on [None]: the first
    assignment raises, and with an empty form the session's [add] does. *)
Lemma serve_patch_None now i form t :
  list_find (fun r => id r = PyInt i) t = None ->
  serve now (PATCH_newsletter i form) t =
    (Raised match form_keys form with
            | [] => UnmappedInstanceError
            | attr :: _ => AttributeError attr
            end, t).
Proof.
  intros Hfind.
  unfold serve, route, NewsletterByID.patch, query_filter_by_id_first.
  unfold mbind at 1 2, M_bind. cbn [transaction]. rewrite Hfind.
  destruct (form_keys form) as [|attr attrs] eqn:Hkeys; [done|].
  cbn. unfold form_getitem.
  destruct (form_keys_is_Some form attr) as [v ->]; [rewrite Hkeys; by left|].
  done.
Qed.



Lemma assigned_title_only (X : string) k r :
  cols (assigned [("title", X)] (form_keys [("title", X)]) (loaded k r)) =
    {| id := id r; title := PyStr X; body := body r;
       published_at := published_at r |}.
Proof. reflexivity. Qed.

(** C8: for an id some row has, a PATCH whose form is just [title = X] sets
    the [title] of the first row of that id to [X] and leaves the [id],
    [body] and [published_at] of that row, the number of rows and every
    other row as they were. *)
Theorem patch_title_changes_only_title now (i : Z) (X : string) (t : Table) :
  PyInt i ∈ id <$> t ->
  exists k r,
    t !! k = Some r /\ id r = PyInt i /\
    let t' := (serve now (PATCH_newsletter i [("title", X)]) t).2 in
    t' !! k = Some {| id := id r; title := PyStr X; body := body r;
                      published_at := published_at r |} /\
    length t' = length t /\
    forall k', k' <> k -> t' !! k' = t !! k'.
Proof.
  intros (k & r & Hfind)%find_id_elem_of. exists k, r.
  destruct (find_id_Some _ _ _ _ Hfind) as [Hk Hid].
  rewrite (serve_patch now i _ t k r Hfind), assigned_title_only. cbn [snd].
  split_and!; [done|done| | |].
  - apply list_lookup_insert_eq. by eapply lookup_lt_Some.
  - apply length_insert.
  - intros k' Hne. by apply list_lookup_insert_ne.
Qed.

Lemma patch_title_changes_only_title_witness :
  PyInt 2 ∈ id <$> [first_issue; second_issue] /\
  exists k r,
    [first_issue; second_issue] !! k = Some r /\ id r = PyInt 2 /\
    let t' := (serve 300 (PATCH_newsletter 2 [("title", "X")])
                 [first_issue; second_issue]).2 in
    t' !! k = Some {| id := id r; title := PyStr "X"; body := body r;
                      published_at := published_at r |} /\
    length t' = length [first_issue; second_issue] /\
    forall k', k' <> k -> t' !! k' = [first_issue; second_issue] !! k'.
Proof.
  assert (PyInt 2 ∈ id <$> [first_issue; second_issue]) as Hin by decide_closed.
  split; [assumption|].
  exact (patch_title_changes_only_title 300 2 "X" [first_issue; second_issue] Hin).
Defined.



(** ** The ids of the rows *)


Lemma serve_patch_keeps_ids now i form t :
  "id" ∉ form_keys form ->
  id <$> (serve now (PATCH_newsletter i form) t).2 = id <$> t.
Proof.
  intros Hnot. destruct (list_find (fun r => id r = PyInt i) t) as [[k r]|] eqn:Hfind.
  - rewrite (serve_patch now i form t k r Hfind). cbn [snd].
    pose proof (get_assigned_other form (form_keys form) (loaded k r) "id" Hnot) as Hid.
    rewrite !get_attribute_id in Hid. injection Hid as Hid.
    rewrite list_fmap_insert, Hid. apply list_insert_id.
    rewrite list_lookup_fmap.
    destruct (find_id_Some _ _ _ _ Hfind) as [Hk _].
    unfold Table in *. by rewrite Hk.
  - by rewrite (serve_patch_None now i form t Hfind).
Qed.




(** ** published_at *)




(** ** The seed script *)

Lemma foldr_max_elem (z : Z) (zs : list Z) : foldr Z.max z zs ∈ z :: zs.
Proof.
  induction zs as [|y zs IH]; cbn; [by left|].
  destruct (Z.max_spec y (foldr Z.max z zs)) as [[_ ->]|[_ ->]].
  - apply elem_of_cons in IH as [->|?]; [by left|by do 2 right].
  - right. by left.
Qed.

Lemma int_ids_elem_of (t : Table) (z : Z) : z ∈ int_ids t -> PyInt z ∈ id <$> t.
Proof.
  unfold int_ids. intros (r & Hr & Hz)%list_elem_of_omap.
  apply list_elem_of_fmap. exists r. split; [|done].
  destruct (id r); congruence.
Qed.


Lemma seeded_from_app k now ns1 ns2 :
  seeded_from k now (ns1 ++ ns2) =
  seeded_from k now ns1 ++ seeded_from (k + Z.of_nat (length ns1)) now ns2.
Proof.
  revert k. induction ns1 as [|n ns1 IH]; intros k; cbn [seeded_from app length].
  - by rewrite Z.add_0_r.
  - rewrite IH. do 3 f_equal. lia.
Qed.

Lemma seeded_from_ids k now ns z :
  PyInt z ∈ id <$> seeded_from k now ns -> k <= z < k + Z.of_nat (length ns).
Proof.
  revert k. induction ns as [|n ns IH]; intros k; cbn.
  - by intros ?%elem_of_nil.
  - intros [[= ->]|Hz%IH]%elem_of_cons; lia.
Qed.

Lemma next_id_seeded now ns :
  next_id (seeded_from 1 now ns) = 1 + Z.of_nat (length ns).
Proof.
  destruct (decide (ns = [])) as [->|Hne]; [done|].
  apply Z.le_antisymm.
  - unfold next_id. destruct (int_ids (seeded_from 1 now ns)) as [|z zs] eqn:Hids.
    + lia.
    + pose proof (foldr_max_elem z zs) as Hmax. rewrite <- Hids in Hmax.
      apply int_ids_elem_of, seeded_from_ids in Hmax. lia.
  - destruct (exists_last Hne) as (ns' & n & ->).
    assert (PyInt (Z.of_nat (length (ns' ++ [n])))
              ∈ id <$> seeded_from 1 now (ns' ++ [n])) as Hlast.
    { rewrite seeded_from_app, fmap_app, elem_of_app. right. cbn.
      rewrite length_app. cbn.
      replace (Z.of_nat (length ns' + 1)) with (1 + Z.of_nat (length ns')) by lia.
      by left. }
    apply int_ids_below_next in Hlast. lia.
Qed.

(** Adding new objects to a table that earlier new objects made. *)
Lemma session_add_all_seeded (l pre : list Instance) (s : Session) :
  transaction s = seeded_from 1 (clock s) pre ->
  Forall transient l ->
  exists objs,
    session_add_all l s =
      (Ok objs, {| database := database s;
                   transaction := seeded_from 1 (clock s) (pre ++ l);
                   clock := clock s |}).
Proof.
  revert pre s. induction l as [|n l IH]; intros pre s Htx Hl.
  - exists []. cbn. unfold mret, M_ret. rewrite app_nil_r, <- Htx. by destruct s.
  - apply Forall_cons in Hl as [(Hident & Hid & Hpub) Hl].
    cbn [session_add_all]. unfold mbind at 1, M_bind, session_add. rewrite Hident.
    set (s' := {| database := database s;
                  transaction := transaction s ++
                                 [inserted (transaction s) (clock s) (cols n)];
                  clock := clock s |}).
    destruct (IH (pre ++ [n]) s') as [objs Hobjs]; [|done|].
    + cbn. rewrite Htx, seeded_from_app. f_equal. cbn.
      unfold inserted. rewrite Hid, Hpub, next_id_seeded. reflexivity.
    + rewrite (bind_Ok _ _ _ _ _ Hobjs). eexists. unfold mret, M_ret.
      by rewrite <- app_assoc.
Qed.

Section SeedProperties.

Variable Faker : Type.
Variable text : Z -> Faker -> string * Faker.
Variable paragraph : Z -> Faker -> string * Faker.

Lemma generate_transient n fake acc :
  Forall transient acc ->
  Forall transient (generate Faker text paragraph n fake acc).1.
Proof.
  revert fake acc. induction n as [|n IH]; intros fake acc Hacc; cbn; [done|].
  destruct (text 20 fake) as [t fake1]. destruct (paragraph 5 fake1) as [b fake2].
  apply IH, Forall_app. split; [done|]. by repeat constructor.
Qed.

Lemma generate_length n fake acc :
  length (generate Faker text paragraph n fake acc).1 = (length acc + n)%nat.
Proof.
  revert fake acc. induction n as [|n IH]; intros fake acc; cbn; [lia|].
  destruct (text 20 fake) as [t fake1]. destruct (paragraph 5 fake1) as [b fake2].
  rewrite IH, length_app. cbn. lia.
Qed.


End SeedProperties.

(** A run with a generator that counts its calls: the table of two rows is
    replaced by 50 rows, the first of which has the key 1 and the texts of
    the first two calls. *)
Example seed_run :
  let fake_text (_ : Z) (k : nat) := (if decide (k = 0%nat) then "first" else "later", S k) in
  let fake_paragraph (_ : Z) (k : nat) := (if decide (k = 1%nat) then "second" else "later", S k) in
  let t := (run_seed nat fake_text fake_paragraph 300 0%nat [first_issue; second_issue]).2 in
  length t = 50%nat /\
  t !! 0%nat = Some {| id := PyInt 1; title := PyStr "first"; body := PyStr "second";
                       published_at := PyDateTime 300 |} /\
  id <$> t !! 49%nat = Some (PyInt 50).
Proof. vm_compute. done. Qed.

(** * Further properties of the handlers *)

(** ** GET /newsletters/<id> *)

(** For an id some row has, GET answers with status 200 and the first such
    row as the schema dumps it: its [title], its [published_at], and the
    links, of which [self] is the route of this very id.  For an id no row
    has, the schema is handed [None] and raises [AttributeError] on the link
    that needs the [id].  The table is untouched either way. *)
Theorem get_by_id_dumps_or_raises now (i : Z) (t : Table) :
  (PyInt i ∈ id <$> t ->
   exists k r j,
     t !! k = Some r /\ id r = PyInt i /\
     serve now (GET_newsletter i) t = (Ok (make_response j 200), t) /\
     json_field "title" j = Some (JValue (title r)) /\
     json_field "published_at" j = Some (JValue (published_at r)) /\
     json_field "url" j =
       Some (JObject [ ("self", JUrl "newsletterbyid" [("id", PyInt i)]);
                       ("collection", JUrl "newsletters" []) ])) /\
  (PyInt i ∉ id <$> t ->
   serve now (GET_newsletter i) t = (Raised (AttributeError "id"), t)).
Proof.
  rewrite serve_get. split.
  - intros (k & r & Hfind)%find_id_elem_of. rewrite Hfind.
    apply find_id_Some in Hfind as [Hk Hid].
    exists k, r, (dumped r). split_and!; try done.
    unfold dumped. cbn. by rewrite Hid.
  - intros Hnot. by rewrite (find_id_not_elem_of i t Hnot).
Qed.

Lemma get_by_id_dumps_or_raises_witness :
  (PyInt 2 ∈ id <$> [first_issue; second_issue] /\
   exists k r j,
     [first_issue; second_issue] !! k = Some r /\ id r = PyInt 2 /\
     serve 300 (GET_newsletter 2) [first_issue; second_issue] =
       (Ok (make_response j 200), [first_issue; second_issue]) /\
     json_field "title" j = Some (JValue (title r)) /\
     json_field "published_at" j = Some (JValue (published_at r)) /\
     json_field "url" j =
       Some (JObject [ ("self", JUrl "newsletterbyid" [("id", PyInt 2)]);
                       ("collection", JUrl "newsletters" []) ])) /\
  ((PyInt 5 ∉ id <$> [first_issue; second_issue]) /\
   serve 300 (GET_newsletter 5) [first_issue; second_issue] =
     (Raised (AttributeError "id"), [first_issue; second_issue])).
Proof.
  assert (PyInt 2 ∈ id <$> [first_issue; second_issue]) as Hin by decide_closed.
  assert (PyInt 5 ∉ id <$> [first_issue; second_issue]) as Hnot by decide_closed.
  split; (split; [assumption|]).
  - exact (proj1 (get_by_id_dumps_or_raises 300 2 [first_issue; second_issue]) Hin).
  - exact (proj2 (get_by_id_dumps_or_raises 300 5 [first_issue; second_issue]) Hnot).
Defined.

(** The item GET /newsletters lists for a row is the object GET
    /newsletters/<id> answers with for the id of that row: for an id some
    row has, the array has, at the position of the first row of that id,
    the very payload of the single read. *)
Theorem list_item_is_single_read now (i : Z) (t : Table) :
  PyInt i ∈ id <$> t ->
  exists k j js,
    serve now GET_newsletters t = (Ok (make_response (JArray js) 200), t) /\
    js !! k = Some j /\
    serve now (GET_newsletter i) t = (Ok (make_response j 200), t).
Proof.
  intros (k & r & Hfind)%find_id_elem_of.
  exists k, (dumped r), (dumped <$> t).
  rewrite serve_get_all, serve_get, Hfind.
  apply find_id_Some in Hfind as [Hk _].
  split_and!; [done| |done].
  rewrite list_lookup_fmap. unfold Table in *. by rewrite Hk.
Qed.

Lemma list_item_is_single_read_witness :
  PyInt 2 ∈ id <$> [first_issue; second_issue] /\
  exists k j js,
    serve 300 GET_newsletters [first_issue; second_issue] =
      (Ok (make_response (JArray js) 200), [first_issue; second_issue]) /\
    js !! k = Some j /\
    serve 300 (GET_newsletter 2) [first_issue; second_issue] =
      (Ok (make_response j 200), [first_issue; second_issue]).
Proof.
  assert (PyInt 2 ∈ id <$> [first_issue; second_issue]) as Hin by decide_closed.
  split; [assumption|].
  exact (list_item_is_single_read 300 2 [first_issue; second_issue] Hin).
Defined.

(** ** PATCH of an id no row has *)

(** For an id no row has, PATCH works on [None]: with a form that names an
    attribute, the first assignment raises [AttributeError] for the first
    name of the form; with an empty form the loop does nothing and the
    session's [add] raises [UnmappedInstanceError].  Nothing is written. *)
Theorem patch_absent_raises now (i : Z) (form : Form) (t : Table) :
  PyInt i ∉ id <$> t ->
  serve now (PATCH_newsletter i form) t =
    (Raised match form with
            | [] => UnmappedInstanceError
            | (attr, _) :: _ => AttributeError attr
            end, t).
Proof.
  intros Hnot%find_id_not_elem_of. rewrite (serve_patch_None now i form t Hnot).
  by destruct form as [|[attr v] form].
Qed.

Lemma patch_absent_raises_witness :
  (PyInt 5 ∉ id <$> [first_issue; second_issue]) /\
  serve 300 (PATCH_newsletter 5 [("title", "X"); ("body", "Y")])
    [first_issue; second_issue] =
    (Raised (AttributeError "title"), [first_issue; second_issue]) /\
  serve 300 (PATCH_newsletter 5 []) [first_issue; second_issue] =
    (Raised UnmappedInstanceError, [first_issue; second_issue]).
Proof.
  assert (PyInt 5 ∉ id <$> [first_issue; second_issue]) as Hnot by decide_closed.
  split; [assumption|]. split.
  - exact (patch_absent_raises 300 5 [("title", "X"); ("body", "Y")]
             [first_issue; second_issue] Hnot).
  - exact (patch_absent_raises 300 5 [] [first_issue; second_issue] Hnot).
Defined.

(** ** Requests that fail *)

(** A request that ends in an exception has changed nothing: whatever the
    resource and the verb, when the handler raises, the table is the one
    the request found. *)
Theorem failed_request_changes_nothing now (r : Request) (t : Table) (e : exn) :
  (serve now r t).1 = Raised e -> (serve now r t).2 = t.
Proof.
  destruct r as [| |form|i|i form|i].
  - done.
  - by rewrite serve_get_all.
  - rewrite serve_post.
    destruct (form_first form "title"); [|done].
    by destruct (form_first form "body").
  - rewrite serve_get. by destruct (list_find _ t) as [[k r]|].
  - destruct (list_find (fun r => id r = PyInt i) t) as [[k r]|] eqn:Hfind.
    + by rewrite (serve_patch now i form t k r Hfind).
    + by rewrite (serve_patch_None now i form t Hfind).
  - rewrite serve_delete. by destruct (list_find _ t) as [[k r]|].
Qed.

Lemma failed_request_changes_nothing_witness :
  (serve 300 (POST_newsletters [("title", "Autumn")]) [first_issue]).1 =
    Raised (BadRequestKeyError "body") /\
  (serve 300 (POST_newsletters [("title", "Autumn")]) [first_issue]).2 = [first_issue].
Proof.
  split; [reflexivity|].
  exact (failed_request_changes_nothing 300 (POST_newsletters [("title", "Autumn")])
           [first_issue] (BadRequestKeyError "body") eq_refl).
Defined.

(** The number of rows after a request that succeeds: one more after a
    POST, one less after a DELETE, the same after a GET or a PATCH. *)
Theorem row_count_after_success now (r : Request) (t : Table) (resp : Response) :
  (serve now r t).1 = Ok resp ->
  match r with
  | POST_newsletters _ => length (serve now r t).2 = S (length t)
  | DELETE_newsletter _ => S (length (serve now r t).2) = length t
  | _ => length (serve now r t).2 = length t
  end.
Proof.
  destruct r as [| |form|i|i form|i].
  - done.
  - by rewrite serve_get_all.
  - rewrite serve_post.
    destruct (form_first form "title"); [|done].
    destruct (form_first form "body"); [|done].
    intros _. cbn [snd]. rewrite length_app. cbn. lia.
  - rewrite serve_get. by destruct (list_find _ t) as [[k r]|].
  - destruct (list_find (fun r => id r = PyInt i) t) as [[k r]|] eqn:Hfind.
    + rewrite (serve_patch now i form t k r Hfind). intros _. apply length_insert.
    + by rewrite (serve_patch_None now i form t Hfind).
  - rewrite serve_delete.
    destruct (list_find _ t) as [[k r]|] eqn:Hfind; [|done].
    intros _. cbn [snd]. apply find_id_Some in Hfind as [Hk _].
    unfold Table in *.
    pose proof (length_delete t k (mk_is_Some _ _ Hk)) as Hlen.
    apply lookup_lt_Some in Hk. lia.
Qed.

Lemma row_count_after_success_witness :
  (serve 300 (DELETE_newsletter 1) [first_issue; second_issue]).1 =
    Ok (make_response
          (JObject [("message", JValue (PyStr "record successfully deleted"))]) 200) /\
  S (length (serve 300 (DELETE_newsletter 1) [first_issue; second_issue]).2) =
    length [first_issue; second_issue].
Proof.
  split; [reflexivity|].
  exact (row_count_after_success 300 (DELETE_newsletter 1) [first_issue; second_issue]
           _ eq_refl).
Defined.

(** ** POST reads two fields *)

(** POST reads the first [title] and the first [body] of the form and
    nothing else: two forms that agree on these two lookups get the same
    answer and leave the same table, whatever else they carry (an [id], a
    [published_at], further values under [title] or [body]). *)
Theorem post_reads_only_title_and_body now (form form' : Form) (t : Table) :
  form_first form "title" = form_first form' "title" ->
  form_first form "body" = form_first form' "body" ->
  serve now (POST_newsletters form) t = serve now (POST_newsletters form') t.
Proof. intros Ht Hb. by rewrite !serve_post, Ht, Hb. Qed.

Lemma post_reads_only_title_and_body_witness :
  form_first [("id", "99"); ("title", "Autumn"); ("body", "Leaves."); ("title", "Other")]
    "title" = form_first [("title", "Autumn"); ("body", "Leaves.")] "title" /\
  form_first [("id", "99"); ("title", "Autumn"); ("body", "Leaves."); ("title", "Other")]
    "body" = form_first [("title", "Autumn"); ("body", "Leaves.")] "body" /\
  serve 300 (POST_newsletters
               [("id", "99"); ("title", "Autumn"); ("body", "Leaves."); ("title", "Other")])
    [first_issue] =
  serve 300 (POST_newsletters [("title", "Autumn"); ("body", "Leaves.")]) [first_issue].
Proof.
  split; [reflexivity|]. split; [reflexivity|].
  exact (post_reads_only_title_and_body 300
           [("id", "99"); ("title", "Autumn"); ("body", "Leaves."); ("title", "Other")]
           [("title", "Autumn"); ("body", "Leaves.")] [first_issue] eq_refl eq_refl).
Defined.

(** ** POST and DELETE together *)

(** A DELETE of the id a POST has just assigned takes the new row out again
    and leaves the table as it was before the POST. *)
Theorem post_then_delete_restores now later (form : Form) (t : Table) (resp : Response) :
  (serve now (POST_newsletters form) t).1 = Ok resp ->
  serve later (DELETE_newsletter (next_id t)) (serve now (POST_newsletters form) t).2 =
    (Ok (make_response
           (JObject [("message", JValue (PyStr "record successfully deleted"))])
           200),
     t).
Proof.
  rewrite serve_post.
  destruct (form_first form "title") as [tv|]; [|done].
  destruct (form_first form "body") as [bv|]; [|done].
  intros _. cbn [snd]. rewrite serve_delete, find_new_row by done.
  unfold Table in *. by rewrite delete_middle, app_nil_r.
Qed.

Lemma post_then_delete_restores_witness :
  (serve 300 (POST_newsletters [("title", "Autumn"); ("body", "Leaves.")])
     [first_issue; second_issue]).1 =
    Ok (make_response
          (dumped {| id := PyInt 3; title := PyStr "Autumn";
                     body := PyStr "Leaves."; published_at := PyDateTime 300 |})
          201) /\
  serve 400 (DELETE_newsletter (next_id [first_issue; second_issue]))
    (serve 300 (POST_newsletters [("title", "Autumn"); ("body", "Leaves.")])
       [first_issue; second_issue]).2 =
    (Ok (make_response
           (JObject [("message", JValue (PyStr "record successfully deleted"))])
           200),
     [first_issue; second_issue]).
Proof.
  split; [reflexivity|].
  exact (post_then_delete_restores 300 400 [("title", "Autumn"); ("body", "Leaves.")]
           [first_issue; second_issue] _ eq_refl).
Defined.

(** ** After a DELETE *)

Lemma NoDup_delete_not_elem {A} (l : list A) (k : nat) (x : A) :
  NoDup l -> l !! k = Some x -> x ∉ delete k l.
Proof.
  intros Hdup Hk. pose proof (take_drop_middle l k x Hk) as Hmid.
  rewrite <- Hmid in Hdup. apply NoDup_app in Hdup as (_ & Hleft & Hright).
  apply NoDup_cons in Hright as [Hright _].
  assert (delete k l = take k l ++ drop (S k) l) as ->.
  { rewrite <- Hmid at 1.
    assert (k = length (take k l)) as Hlen.
    { rewrite length_take. apply lookup_lt_Some in Hk. lia. }
    rewrite Hlen at 1. apply delete_middle. }
  rewrite elem_of_app. intros [Hin|Hin]; [|done].
  apply (Hleft x Hin). by left.
Qed.

(** In a table whose rows have pairwise distinct ids, a DELETE of an id
    some row has removes the row for good: the table has one row less, a
    GET of that id finds nothing and fails, and a second DELETE of that id
    fails as well, so that DELETE is not idempotent. *)
Theorem delete_then_gone now later (i : Z) (t : Table) :
  NoDup (id <$> t) ->
  PyInt i ∈ id <$> t ->
  let t' := (serve now (DELETE_newsletter i) t).2 in
  S (length t') = length t /\
  (PyInt i ∉ id <$> t') /\
  serve later (GET_newsletter i) t' = (Raised (AttributeError "id"), t') /\
  serve later (DELETE_newsletter i) t' = (Raised UnmappedInstanceError, t').
Proof.
  intros Hdup (k & r & Hfind)%find_id_elem_of t'. subst t'.
  rewrite (serve_delete now). rewrite Hfind. cbn [snd].
  apply find_id_Some in Hfind as [Hk Hid]. unfold Table in *.
  assert (PyInt i ∉ id <$> delete k t) as Hgone.
  { rewrite list_fmap_delete. apply NoDup_delete_not_elem; [done|].
    by rewrite list_lookup_fmap, Hk, <- Hid. }
  split_and!; [|done| |].
  - pose proof (length_delete t k (mk_is_Some _ _ Hk)) as Hlen.
    apply lookup_lt_Some in Hk. lia.
  - by rewrite serve_get, (find_id_not_elem_of i _ Hgone).
  - by rewrite serve_delete, (find_id_not_elem_of i _ Hgone).
Qed.

Lemma delete_then_gone_witness :
  NoDup (id <$> [first_issue; second_issue]) /\
  PyInt 1 ∈ id <$> [first_issue; second_issue] /\
  let t' := (serve 300 (DELETE_newsletter 1) [first_issue; second_issue]).2 in
  S (length t') = length [first_issue; second_issue] /\
  (PyInt 1 ∉ id <$> t') /\
  serve 400 (GET_newsletter 1) t' = (Raised (AttributeError "id"), t') /\
  serve 400 (DELETE_newsletter 1) t' = (Raised UnmappedInstanceError, t').
Proof.
  assert (NoDup (id <$> [first_issue; second_issue])) as Hdup by decide_closed.
  assert (PyInt 1 ∈ id <$> [first_issue; second_issue]) as Hin by decide_closed.
  split; [assumption|]. split; [assumption|].
  exact (delete_then_gone 300 400 1 [first_issue; second_issue] Hdup Hin).
Defined.

(** ** PATCH: what is written, and reading it back *)

Lemma get_attribute_column n attr :
  is_column attr = true -> get_attribute n attr = get_column (cols n) attr.
Proof.
  intros [->|[->|[->| ->]]]%is_column_true; reflexivity.
Qed.

Lemma Newsletter_ext (a b : Newsletter) :
  (forall attr, is_column attr = true -> get_column a attr = get_column b attr) ->
  a = b.
Proof.
  intros H. destruct a as [ai at_ ab ap], b as [bi bt bb bp].
  pose proof (H "id" eq_refl) as Hi. pose proof (H "title" eq_refl) as Ht.
  pose proof (H "body" eq_refl) as Hb. pose proof (H "published_at" eq_refl) as Hp.
  cbv in Hi, Ht, Hb, Hp. congruence.
Qed.


(** The columns the loop leaves depend on the columns it starts from only. *)
Lemma cols_assigned_twice form n1 n2 :
  cols n2 = cols (assigned form (form_keys form) n1) ->
  cols (assigned form (form_keys form) n2) = cols n2.
Proof.
  intros Hcols. apply Newsletter_ext. intros attr Hcol.
  rewrite <- !get_attribute_column by done.
  destruct (decide (attr ∈ form_keys form)) as [Hin|Hnot].
  - destruct (form_keys_is_Some form attr Hin) as [v Hv].
    rewrite (get_assigned form _ n2 attr v) by (done || apply form_keys_is_Some).
    rewrite (get_attribute_column n2), Hcols, <- get_attribute_column by done.
    symmetry. apply get_assigned; [apply form_keys_is_Some|done..].
  - by apply get_assigned_other.
Qed.

Lemma find_id_same_ids (i : Z) (t t' : Table) k r :
  id <$> t' = id <$> t ->
  list_find (fun r => id r = PyInt i) t = Some (k, r) ->
  exists r', list_find (fun r => id r = PyInt i) t' = Some (k, r') /\ t' !! k = Some r'.
Proof.
  intros Hids (Hk & Hid & Hleast)%list_find_Some. unfold Table in *.
  assert (forall j, id <$> (t' !! j) = id <$> (t !! j)) as Hat.
  { intros j. by rewrite <- !list_lookup_fmap, Hids. }
  pose proof (Hat k) as Hatk. rewrite Hk in Hatk.
  destruct (t' !! k) as [r'|] eqn:Hk'; [|done]. injection Hatk as Hid'.
  exists r'. split; [|done]. apply list_find_Some. split_and!; [done|congruence|].
  intros j y Hj Hlt Hy. pose proof (Hat j) as Hatj. rewrite Hj in Hatj.
  destruct (t !! j) as [y0|] eqn:Hj0; [|done]. injection Hatj as Hy0.
  apply (Hleast j y0 Hj0 Hlt). congruence.
Qed.





(** A PATCH whose form does not name [id] is idempotent: sent a second time
    to the table the first one left, it answers the same and leaves the same
    table, whether a row of that id exists or not. *)
Theorem patch_twice_is_patch_once now later (i : Z) (form : Form) (t : Table) :
  "id" ∉ form.*1 ->
  serve later (PATCH_newsletter i form) (serve now (PATCH_newsletter i form) t).2 =
    serve now (PATCH_newsletter i form) t.
Proof.
  intros Hnot.
  assert ("id" ∉ form_keys form) as Hkeys by (by rewrite form_keys_elem_of).
  destruct (list_find (fun r => id r = PyInt i) t) as [[k r]|] eqn:Hfind.
  - pose proof (serve_patch_keeps_ids now i form t Hkeys) as Hids.
    destruct (find_id_same_ids i t _ k r Hids Hfind) as (r' & Hfind' & Hk').
    rewrite (serve_patch later i form _ k r' Hfind').
    rewrite (serve_patch now i form t k r Hfind) in *. cbn [snd] in *.
    apply find_id_Some in Hfind as [Hk _]. unfold Table in *.
    rewrite list_lookup_insert_eq in Hk' by (by eapply lookup_lt_Some).
    injection Hk' as <-.
    rewrite (cols_assigned_twice form (loaded k r)) by done.
    cbn [cols loaded]. by rewrite list_insert_insert_eq.
  - rewrite (serve_patch_None now i form t Hfind). cbn [snd].
    by rewrite (serve_patch_None later i form t Hfind).
Qed.

Lemma patch_twice_is_patch_once_witness :
  ("id" ∉ [("title", "X"); ("colour", "red")].*1) /\
  serve 400 (PATCH_newsletter 2 [("title", "X"); ("colour", "red")])
    (serve 300 (PATCH_newsletter 2 [("title", "X"); ("colour", "red")])
       [first_issue; second_issue]).2 =
    serve 300 (PATCH_newsletter 2 [("title", "X"); ("colour", "red")])
      [first_issue; second_issue].
Proof.
  assert ("id" ∉ [("title", "X"); ("colour", "red")].*1) as Hnot by decide_closed.
  split; [assumption|].
  exact (patch_twice_is_patch_once 300 400 2 [("title", "X"); ("colour", "red")]
           [first_issue; second_issue] Hnot).
Defined.

(** ** Reading after a seed run *)

Lemma find_seeded (a now : Z) (ns : list Instance) (k : Z) :
  a <= k < a + Z.of_nat (length ns) ->
  exists n,
    ns !! Z.to_nat (k - a) = Some n /\
    list_find (fun r => id r = PyInt k) (seeded_from a now ns) =
      Some (Z.to_nat (k - a),
            {| id := PyInt k; title := title (cols n); body := body (cols n);
               published_at := PyDateTime now |}).
Proof.
  revert a. induction ns as [|n0 ns IH]; intros a Hk; cbn in Hk; [lia|].
  cbn [seeded_from list_find]. destruct (decide (a = k)) as [->|Hne].
  - exists n0. rewrite Z.sub_diag. cbn. split; [done|].
    by rewrite decide_True by done.
  - destruct (IH (a + 1)) as (n & Hn & Hfind); [lia|].
    exists n. replace (Z.to_nat (k - a)) with (S (Z.to_nat (k - (a + 1)))) by lia.
    split; [done|]. cbn. rewrite decide_False by congruence.
    by rewrite Hfind.
Qed.

Section ReadingSeeded.

Variable Faker : Type.
Variable text : Z -> Faker -> string * Faker.
Variable paragraph : Z -> Faker -> string * Faker.

Lemma run_seed_table now (fake : Faker) (t : Table) :
  (run_seed Faker text paragraph now fake t).2 =
    seeded_from 1 now (generate Faker text paragraph 50 fake []).1.
Proof.
  unfold run_seed, seed, mbind, M_bind, query_delete.
  cbn [transaction database clock].
  destruct (session_add_all_seeded (generate Faker text paragraph 50 fake []).1 []
              {| database := t; transaction := []; clock := now |})
    as [objs Hobjs]; [done|by apply generate_transient|].
  by rewrite Hobjs.
Qed.

(** After a run of the seed script the 50 rows are there to be read under
    the ids 1 to 50 and under no other: a GET of an id [k] from 1 to 50
    answers with status 200 and the [k]-th generated newsletter, with the
    timestamp of the run; a GET of any other id fails.  What the table held
    before the run plays no part. *)
Theorem seed_then_get now later (fake : Faker) (t : Table) (k : Z) :
  let seeded := (run_seed Faker text paragraph now fake t).2 in
  (1 <= k <= 50 ->
   exists n,
     (generate Faker text paragraph 50 fake []).1 !! Z.to_nat (k - 1) = Some n /\
     serve later (GET_newsletter k) seeded =
       (Ok (make_response
              (dumped {| id := PyInt k; title := title (cols n);
                         body := body (cols n); published_at := PyDateTime now |})
              200),
        seeded)) /\
  (~ (1 <= k <= 50) ->
   serve later (GET_newsletter k) seeded = (Raised (AttributeError "id"), seeded)).
Proof.
  intros seeded. subst seeded. rewrite run_seed_table.
  pose proof (generate_length Faker text paragraph 50 fake []) as Hlen.
  cbn [length] in Hlen. split.
  - intros Hk.
    destruct (find_seeded 1 now (generate Faker text paragraph 50 fake []).1 k)
      as (n & Hn & Hfind); [rewrite Hlen; lia|].
    exists n. split; [done|]. by rewrite serve_get, Hfind.
  - intros Hk. rewrite serve_get, find_id_not_elem_of; [done|].
    intros Hin%seeded_from_ids. rewrite Hlen in Hin. lia.
Qed.

End ReadingSeeded.

Lemma seed_then_get_witness :
  let fake_text (_ : Z) (c : nat) := ("title", S c) in
  let fake_paragraph (_ : Z) (c : nat) := ("paragraph", S c) in
  let seeded := (run_seed nat fake_text fake_paragraph 300 0%nat [first_issue]).2 in
  (1 <= 50 <= 50 /\
   exists n,
     (generate nat fake_text fake_paragraph 50 0%nat []).1 !! Z.to_nat (50 - 1) = Some n /\
     serve 400 (GET_newsletter 50) seeded =
       (Ok (make_response
              (dumped {| id := PyInt 50; title := title (cols n);
                         body := body (cols n); published_at := PyDateTime 300 |})
              200),
        seeded)) /\
  (~ (1 <= 51 <= 50) /\
   serve 400 (GET_newsletter 51) seeded = (Raised (AttributeError "id"), seeded)).
Proof.
  intros fake_text fake_paragraph seeded.
  assert (1 <= 50 <= 50) as Hin by lia.
  assert (~ (1 <= 51 <= 50)) as Hout by lia.
  split; (split; [assumption|]).
  - exact (proj1 (seed_then_get nat fake_text fake_paragraph 300 400 0%nat
                    [first_issue] 50) Hin).
  - exact (proj2 (seed_then_get nat fake_text fake_paragraph 300 400 0%nat
                    [first_issue] 51) Hout).
Defined.

(** ** What a read does not show *)

Lemma dumped_same (r r' : Newsletter) :
  id r = id r' -> title r = title r' -> published_at r = published_at r' ->
  dumped r = dumped r'.
Proof. unfold dumped. by intros -> -> ->. Qed.

Lemma fmap_eq_lookup {A B} (f : A -> B) (l l' : list A) k x x' :
  f <$> l = f <$> l' -> l !! k = Some x -> l' !! k = Some x' -> f x = f x'.
Proof.
  intros Heq Hx Hx'.
  assert ((f <$> l) !! k = (f <$> l') !! k) as H by (by rewrite Heq).
  rewrite !list_lookup_fmap, Hx, Hx' in H. by injection H.
Qed.

(** No read shows the [body] of a row: two tables whose rows agree, one by
    one, on [id], [title] and [published_at] get the same answer to GET
    /newsletters and to GET /newsletters/<id> for every id, whatever the
    bodies of the rows are. *)
Theorem reads_do_not_depend_on_body now (t t' : Table) :
  id <$> t = id <$> t' ->
  title <$> t = title <$> t' ->
  published_at <$> t = published_at <$> t' ->
  (serve now GET_newsletters t).1 = (serve now GET_newsletters t').1 /\
  forall i, (serve now (GET_newsletter i) t).1 = (serve now (GET_newsletter i) t').1.
Proof.
  intros Hid Ht Hp. split.
  - rewrite !serve_get_all. cbn [fst]. do 3 f_equal.
    unfold Table in *. apply list_eq. intros k. rewrite !list_lookup_fmap.
    destruct (t !! k) as [r|] eqn:Hk, (t' !! k) as [r'|] eqn:Hk'; cbn.
    + f_equal. apply dumped_same; eauto using fmap_eq_lookup.
    + apply lookup_ge_None in Hk'. apply lookup_lt_Some in Hk.
      apply (f_equal length) in Hid. rewrite !length_fmap in Hid. lia.
    + apply lookup_ge_None in Hk. apply lookup_lt_Some in Hk'.
      apply (f_equal length) in Hid. rewrite !length_fmap in Hid. lia.
    + done.
  - intros i. rewrite !serve_get.
    destruct (list_find (fun r => id r = PyInt i) t) as [[k r]|] eqn:Hfind.
    + destruct (find_id_same_ids i t t' k r (eq_sym Hid) Hfind) as (r' & -> & Hk').
      apply find_id_Some in Hfind as [Hk _]. cbn [fst]. do 2 f_equal.
      apply dumped_same; eauto using fmap_eq_lookup.
    + destruct (list_find (fun r => id r = PyInt i) t') as [[k r']|] eqn:Hfind'; [|done].
      destruct (find_id_same_ids i t' t k r' Hid Hfind') as (r & Hr & _).
      congruence.
Qed.

Lemma reads_do_not_depend_on_body_witness :
  let redacted := {| id := PyInt 1; title := PyStr "Spring"; body := PyStr "";
                    published_at := PyDateTime 100 |} in
  id <$> [first_issue; second_issue] = id <$> [redacted; second_issue] /\
  title <$> [first_issue; second_issue] = title <$> [redacted; second_issue] /\
  published_at <$> [first_issue; second_issue] =
    published_at <$> [redacted; second_issue] /\
  (serve 300 GET_newsletters [first_issue; second_issue]).1 =
    (serve 300 GET_newsletters [redacted; second_issue]).1 /\
  forall i, (serve 300 (GET_newsletter i) [first_issue; second_issue]).1 =
            (serve 300 (GET_newsletter i) [redacted; second_issue]).1.
Proof.
  intros redacted.
  split; [reflexivity|]. split; [reflexivity|]. split; [reflexivity|].
  exact (reads_do_not_depend_on_body 300 [first_issue; second_issue]
           [redacted; second_issue] eq_refl eq_refl eq_refl).
Defined.

(** ** The ids over a run of requests *)

Lemma serve_keeps_distinct now (r : Request) (t : Table) :
  names_id r = false ->
  NoDup (id <$> t) -> NoDup (id <$> (serve now r t).2).
Proof.
  intros Hnames Hdup. destruct r as [| |form|i|i form|i].
  - done.
  - by rewrite serve_get_all.
  - rewrite serve_post.
    destruct (form_first form "title"); [|done].
    destruct (form_first form "body"); [|done].
    cbn [snd]. rewrite fmap_app. apply NoDup_app. split_and!; [done| |apply NoDup_singleton].
    cbn. intros x Hx ->%list_elem_of_singleton. by apply next_id_fresh in Hx.
  - rewrite serve_get. by destruct (list_find _ t) as [[k r]|].
  - rewrite serve_patch_keeps_ids; [done|].
    cbn in Hnames. by apply bool_decide_eq_false in Hnames.
  - rewrite serve_delete. destruct (list_find _ t) as [[k r]|]; [|done].
    cbn [snd]. unfold Table in *. rewrite list_fmap_delete.
    eapply sublist_NoDup; [exact Hdup|apply sublist_delete].
Qed.

(** The ids of the rows stay pairwise distinct over any run of requests, one
    after the other, each at its own time, as long as none of them is a
    PATCH that names [id]: when they are distinct in the table the run
    starts from, they are distinct in the table it ends with.  The empty
    table is such a start. *)
Theorem ids_stay_distinct (rs : list (Z * Request)) (t : Table) :
  Forall (fun nr => names_id nr.2 = false) rs ->
  NoDup (id <$> t) ->
  NoDup (id <$> foldl (fun t nr => (serve nr.1 nr.2 t).2) t rs).
Proof.
  revert t. induction rs as [|[now r] rs IH]; intros t Hrs Hdup; [done|].
  apply Forall_cons in Hrs as [Hr Hrs]. cbn [foldl]. apply IH; [done|].
  by apply serve_keeps_distinct.
Qed.

Lemma ids_stay_distinct_witness :
  let rs := [ (100, POST_newsletters [("title", "Spring"); ("body", "Hello.")]);
              (200, POST_newsletters [("title", "Summer"); ("body", "Again.")]);
              (300, PATCH_newsletter 1 [("title", "X")]);
              (400, DELETE_newsletter 1);
              (500, POST_newsletters [("title", "Autumn"); ("body", "Leaves.")]) ] in
  Forall (fun nr => names_id nr.2 = false) rs /\
  NoDup (id <$> ([] : Table)) /\
  NoDup (id <$> foldl (fun t nr => (serve nr.1 nr.2 t).2) [] rs).
Proof.
  intros rs.
  assert (Forall (fun nr => names_id nr.2 = false) rs) as Hrs
    by (repeat constructor).
  assert (NoDup (id <$> ([] : Table))) as Hdup by constructor.
  split; [assumption|]. split; [assumption|].
  exact (ids_stay_distinct rs [] Hrs Hdup).
Defined.
